(** * OneAgent release-notes service

    A shallow embedding of
    [backend/services/process_oneagent_release_notes.py]
    (class [ProcessOneAgentReleaseNotes]) and the properties of its
    two-step orchestration: fetch the latest version, then fetch the
    summary for that version.

    The Python methods are translated one by one and keep their names.
    Raised exceptions and the sequence of calls made to the external
    collaborators (prompt builder, completion client) are explicit: a
    computation is a function from the log of calls made so far to an
    outcome (a returned value or a raised exception) and the extended
    log.  Diagnostic output ([logger.info], [print]) does not influence
    any returned value and is left out. *)

From Stdlib Require Import ZArith.
From stdpp Require Import gmap strings list.

Local Open Scope string_scope.
Local Open Scope list_scope.

(** ** Python layer *)

(** An instance of a subclass of Python's [Exception]: the class of
    faults that [except Exception as e] handles.  [py_str] is [str(e)]. *)
Record PyException := mkException {
  exc_class : string;
  py_str : string
}.

(** The result of running a piece of Python code. *)
Inductive outcome (A : Type) : Type :=
| Returns (a : A)
| Raises (e : PyException).
Arguments Returns {A} a.
Arguments Raises {A} e.

(** [needle in s] for two [str] operands: substring search. *)
Fixpoint startswith (needle s : string) : bool :=
  match needle, s with
  | EmptyString, _ => true
  | String a needle', String b s' =>
      if decide (a = b) then startswith needle' s' else false
  | String _ _, EmptyString => false
  end.

Fixpoint str_contains (needle s : string) : bool :=
  startswith needle s ||
  match s with
  | EmptyString => false
  | String _ s' => str_contains needle s'
  end.

(** ** Data models

    [data_models.py] is not part of the sources at hand. *)

(** Modelled from the spec: [data_models.ComponentLatestReleaseVersion],
    the structured record of the version lookup; its [version] field is a
    plain string. *)
Record ComponentLatestReleaseVersion := mkVersion {
  version : string
}.

(** Modelled from the spec: [data_models.ComponentLatestReleaseSummary],
    a structured record with a [latestVersion] string field and a
    natural-language [summary] field. *)
Record ComponentLatestReleaseSummary := mkSummary {
  latestVersion : string;
  summary : string
}.

(** [result.latestVersion = version] *)
Definition set_latestVersion (v : string) (r : ComponentLatestReleaseSummary)
  : ComponentLatestReleaseSummary :=
  {| latestVersion := v; summary := summary r |}.

(** What iterating over the model yields: its (field name, value) pairs. *)
Definition model_items (r : ComponentLatestReleaseSummary) : list (string * string) :=
  [("latestVersion", latestVersion r); ("summary", summary r)].

(** The values that flow between the steps of the service: the
    [{"error": ...}] dictionaries, the version string, and the parsed
    summary model. *)
Inductive PyValue :=
| VDict (d : gmap string string)
| VStr (s : string)
| VSummary (r : ComponentLatestReleaseSummary).

(** [needle in v], with [needle] a [str].
    - on a [dict]: key membership;
    - on a [str]: substring search;
    - on a model instance: the class defines no [__contains__], so the
      test iterates over the instance, which yields (name, value) tuples;
      a [str] never compares equal to a tuple. *)
Definition py_in (needle : string) (v : PyValue) : bool :=
  match v with
  | VDict d => bool_decide (is_Some (d !! needle))
  | VStr s => str_contains needle s
  | VSummary r => existsb (fun _ : string * string => false) (model_items r)
  end.

(** The keys (for a record: the field names) a value has.  A string has
    none. *)
Definition keys (v : PyValue) : gset string :=
  match v with
  | VDict d => dom d
  | VStr _ => ∅
  | VSummary r => list_to_set (model_items r).*1
  end.

(** An [{"error": msg}] dictionary. *)
Definition error_dict (v : PyValue) : Prop :=
  exists msg : string, v = VDict {[ "error" := msg ]}.

(** ** External collaborators *)

Inductive Tool := web_search_preview.

(** The [text_format] argument of [responses.parse] and the type of
    [output_parsed] it determines. *)
Inductive TextFormat :=
| ComponentLatestReleaseVersion_fmt
| ComponentLatestReleaseSummary_fmt.

Definition parsed_type (tf : TextFormat) : Type :=
  match tf with
  | ComponentLatestReleaseVersion_fmt => ComponentLatestReleaseVersion
  | ComponentLatestReleaseSummary_fmt => ComponentLatestReleaseSummary
  end.

(** The response object; [output_parsed] is [None] when the model output
    could not be decoded into the requested structure. *)
Record ParsedResponse (A : Type) := mkResponse {
  output_parsed : option A
}.
Arguments mkResponse {A} output_parsed.
Arguments output_parsed {A} _.

(** [openai.OpenAI]: the one method the service uses,
    [responses.parse(model, input, tools, text_format)].  Within one
    request it is called at most once per [text_format], so a function of
    the arguments covers every behaviour of the remote service. *)
Record OpenAI := mkOpenAI {
  responses_parse :
    string -> string -> list Tool ->
    forall tf : TextFormat, outcome (ParsedResponse (parsed_type tf))
}.

(** Calls to the collaborators, in the order they are made. *)
Inductive Event :=
| CallVersionPrompt
| CallSummaryPrompt (version : string)
| CallParse (model input : string) (tools : list Tool) (text_format : TextFormat).

(** ** Computations: call log and exceptions *)

Definition M (A : Type) : Type := list Event -> outcome A * list Event.

Definition ret {A} (a : A) : M A := fun log => (Returns a, log).

Definition raise {A} (e : PyException) : M A := fun log => (Raises e, log).

Definition bind {A B} (m : M A) (f : A -> M B) : M B :=
  fun log =>
    match m log with
    | (Returns a, log') => f a log'
    | (Raises e, log') => (Raises e, log')
    end.

(** [try: m  except Exception as e: handler e] *)
Definition try_except {A} (m : M A) (handler : PyException -> M A) : M A :=
  fun log =>
    match m log with
    | (Returns a, log') => (Returns a, log')
    | (Raises e, log') => handler e log'
    end.

(** Calling a collaborator records the call and yields its outcome. *)
Definition call {A} (ev : Event) (r : outcome A) : M A :=
  fun log => (r, log ++ [ev]).

Notation "'let*' x ':=' m 'in' k" := (bind m (fun x => k))
  (at level 10, x name, m at level 100, k at level 200).

(** Run a request from an empty log. *)
Definition run {A} (m : M A) : outcome A * list Event := m [].

(** Counting calls in a log. *)
Fixpoint count_calls (p : Event -> bool) (log : list Event) : nat :=
  match log with
  | [] => 0
  | ev :: log' => (if p ev then 1 else 0) + count_calls p log'
  end.

Definition is_summary_call (ev : Event) : bool :=
  match ev with
  | CallSummaryPrompt _ => true
  | CallParse _ _ _ ComponentLatestReleaseSummary_fmt => true
  | _ => false
  end.

(** Number of calls made on behalf of the summary lookup (step 2). *)
Definition summary_lookup_calls (log : list Event) : nat :=
  count_calls is_summary_call log.

(** ** The service *)

(** [self]: the instance holds the injected client handle, which is
    [None] when no API key is configured. *)
Record ProcessOneAgentReleaseNotes := mkService {
  openai_client : option OpenAI
}.

(** What [process_dynatrace_release_news] hands back to the framework:
    a [JSONResponse(status_code, content)] or a plain value. *)
Inductive HandlerResult :=
| JSONResponse (status_code : Z) (content : PyValue)
| Value (v : PyValue).

(** [self.openai_client.responses] on a [None] handle. *)
Definition get_responses (c : option OpenAI) : M OpenAI :=
  match c with
  | Some client => ret client
  | None =>
      raise (mkException "AttributeError"
               "'NoneType' object has no attribute 'responses'")
  end.

(** The parameter [version: str] of [_get_oneagent_release_summary]: the
    value passed on by step 1 is used as a string.  Step 1 only ever
    returns a string or a dictionary with an [error] key (lemma
    [oneagent_latest_version_shape]), so the second case is not reached
    from [process_dynatrace_release_news]. *)
Definition as_str (v : PyValue) : M string :=
  match v with
  | VStr s => ret s
  | _ => raise (mkException "TypeError" "version must be str")
  end.

(** ** Test doubles

    Concrete collaborators on which the service can be evaluated. *)

Definition version_prompt_double : unit -> outcome string :=
  fun _ => Returns "What is the latest OneAgent version?".

Definition summary_prompt_double : string -> outcome string :=
  fun v => Returns ("Summarise the release notes of OneAgent " +:+ v).

Definition failing_version_prompt : unit -> outcome string :=
  fun _ => Raises (mkException "KeyError" "'version_template'").

Definition failing_summary_prompt : string -> outcome string :=
  fun _ => Raises (mkException "KeyError" "'summary_template'").

(** A client that answers each of the two structured requests with a
    scripted outcome. *)
Definition scripted_client
    (on_version : outcome (ParsedResponse ComponentLatestReleaseVersion))
    (on_summary : outcome (ParsedResponse ComponentLatestReleaseSummary))
  : OpenAI :=
  mkOpenAI (fun _ _ _ tf =>
    match tf return outcome (ParsedResponse (parsed_type tf)) with
    | ComponentLatestReleaseVersion_fmt => on_version
    | ComponentLatestReleaseSummary_fmt => on_summary
    end).

Definition answers {A} (a : A) : outcome (ParsedResponse A) :=
  Returns (mkResponse (Some a)).

Definition answers_nothing {A} : outcome (ParsedResponse A) :=
  Returns (mkResponse None).

Definition rate_limited {A} : outcome (ParsedResponse A) :=
  Raises (mkException "RateLimitError" "Error code: 429 - rate limit exceeded").

Definition unconfigured_service : ProcessOneAgentReleaseNotes :=
  mkService None.

Definition service_with (c : OpenAI) : ProcessOneAgentReleaseNotes :=
  mkService (Some c).

(** The end-to-end scenario: the version lookup answers "24.5", the
    summary lookup answers a record whose [latestVersion] is "unset". *)
Definition scenario_service : ProcessOneAgentReleaseNotes :=
  service_with (scripted_client (answers (mkVersion "24.5"))
                                (answers (mkSummary "unset" "Improved X"))).

(** The completion client raises during the version lookup. *)
Definition rate_limited_service : ProcessOneAgentReleaseNotes :=
  service_with (scripted_client rate_limited
                                (answers (mkSummary "" "Improved X"))).

(** The version lookup yields no parsed payload. *)
Definition empty_version_service : ProcessOneAgentReleaseNotes :=
  service_with (scripted_client answers_nothing
                                (answers (mkSummary "" "Improved X"))).

(** The completion client raises during the summary lookup. *)
Definition rate_limited_summary_service : ProcessOneAgentReleaseNotes :=
  service_with (scripted_client (answers (mkVersion "1.2.3")) rate_limited).

(** The version lookup answers with a version string that contains
    "error". *)
Definition error_fix_service : ProcessOneAgentReleaseNotes :=
  service_with (scripted_client (answers (mkVersion "1.2.3-error-fix"))
                                (answers (mkSummary "" "Improved X"))).

(** The summary lookup yields no parsed payload. *)
Definition empty_summary_service : ProcessOneAgentReleaseNotes :=
  service_with (scripted_client (answers (mkVersion "1.2.3")) answers_nothing).

Section Service.

(** [prompts/oneagent_prompts.py] is not part of the sources at hand;
    the two prompt builders are parameters.  They may raise. *)
Variable get_oneagent_version_prompt : unit -> outcome string.
Variable get_oneagent_summary_prompt : string -> outcome string.

(** Body of the [try] block of [_oneagent_latest_version]. *)
Definition _oneagent_latest_version_try (client : OpenAI) : M PyValue :=
  let* oneagent_version_prompt :=
    call CallVersionPrompt (get_oneagent_version_prompt tt) in
  let* oneagent_version_response :=
    call (CallParse "gpt-4o" oneagent_version_prompt [web_search_preview]
            ComponentLatestReleaseVersion_fmt)
         (responses_parse client "gpt-4o" oneagent_version_prompt
            [web_search_preview] ComponentLatestReleaseVersion_fmt) in
  match output_parsed oneagent_version_response with
  | None =>
      ret (VDict {[ "error" := "Failed to extract the latest OneAgent version." ]})
  | Some result => ret (VStr (version result))
  end.

Definition _oneagent_latest_version (self : ProcessOneAgentReleaseNotes)
  : M PyValue :=
  match openai_client self with
  | None => ret (VDict {[ "error" := "OpenAI API key not configured." ]})
  | Some client =>
      try_except (_oneagent_latest_version_try client)
        (fun e => ret (VDict {[ "error" := py_str e ]}))
  end.

Definition _get_oneagent_latest_version (self : ProcessOneAgentReleaseNotes)
  : M PyValue :=
  _oneagent_latest_version self.

(** Body of the [try] block of [_get_oneagent_release_summary]. *)
Definition _get_oneagent_release_summary_try
    (self : ProcessOneAgentReleaseNotes) (version : string) : M PyValue :=
  let* summary_prompt :=
    call (CallSummaryPrompt version) (get_oneagent_summary_prompt version) in
  let* client := get_responses (openai_client self) in
  let* summary_response :=
    call (CallParse "gpt-4o" summary_prompt [web_search_preview]
            ComponentLatestReleaseSummary_fmt)
         (responses_parse client "gpt-4o" summary_prompt
            [web_search_preview] ComponentLatestReleaseSummary_fmt) in
  match output_parsed summary_response with
  | None => ret (VDict {[ "error" := "Failed to get summary from OpenAI." ]})
  | Some result => ret (VSummary (set_latestVersion version result))
  end.

Definition _get_oneagent_release_summary
    (self : ProcessOneAgentReleaseNotes) (version : string) : M PyValue :=
  try_except (_get_oneagent_release_summary_try self version)
    (fun e => ret (VDict {[ "error" := py_str e ]})).

Definition process_dynatrace_release_news
    (self : ProcessOneAgentReleaseNotes) : M HandlerResult :=
  let* one_agent_latest_version := _get_oneagent_latest_version self in
  if py_in "error" one_agent_latest_version then
    ret (JSONResponse 500 one_agent_latest_version)
  else
    let* version := as_str one_agent_latest_version in
    let* summary_result := _get_oneagent_release_summary self version in
    if py_in "error" summary_result then
      ret (JSONResponse 500 summary_result)
    else
      ret (Value summary_result).

End Service.

Abbreviation process_with_doubles :=
  (process_dynatrace_release_news version_prompt_double summary_prompt_double).

(** Proof steps shared by the lemmas on the service. *)

Ltac unfold_service :=
  unfold process_dynatrace_release_news, _get_oneagent_latest_version,
    _oneagent_latest_version, _oneagent_latest_version_try,
    _get_oneagent_release_summary, _get_oneagent_release_summary_try,
    get_responses, as_str, try_except, bind, call, ret, raise, run in *.

Ltac case_outcome :=
  match goal with
  | |- context [match ?x with Returns _ => _ | Raises _ => _ end] =>
      destruct x eqn:?
  | |- context [match output_parsed ?x with Some _ => _ | None => _ end] =>
      destruct (output_parsed x) eqn:?
  | |- context [match openai_client ?x with Some _ => _ | None => _ end] =>
      destruct (openai_client x) eqn:?
  end.

(** * Properties *)

(** ** Substring search *)

Lemma append_cons (c : Ascii.ascii) (s t : string) :
  String c s +:+ t = String c (s +:+ t).
Proof. reflexivity. Qed.

Lemma startswith_spec (needle s : string) :
  startswith needle s = true <-> exists rest, s = needle +:+ rest.
Proof.
  revert s. induction needle as [|a needle IH]; intros s; simpl.
  - split; [intros _; exists s; reflexivity | reflexivity].
  - destruct s as [|b s].
    + split; [discriminate | intros [rest H]; discriminate].
    + destruct (decide (a = b)) as [->|Hne].
      * rewrite IH. split; intros [rest H]; exists rest;
          rewrite append_cons in *; congruence.
      * split; [discriminate |].
        intros [rest H]. rewrite append_cons in H. congruence.
Qed.

Lemma str_contains_spec (needle s : string) :
  str_contains needle s = true <->
  exists before after, s = before +:+ needle +:+ after.
Proof.
  induction s as [|c s IH]; simpl; rewrite orb_true_iff, startswith_spec.
  - split.
    + intros [[rest H]|H]; [|discriminate]. exists "", rest. exact H.
    + intros [before [after H]]. left. destruct before as [|b before].
      * exists after. exact H.
      * rewrite append_cons in H. discriminate.
  - rewrite IH. split.
    + intros [[rest H]|[before [after H]]].
      * exists "", rest. exact H.
      * exists (String c before), after. rewrite append_cons. congruence.
    + intros [before [after H]]. destruct before as [|b before].
      * left. exists after. exact H.
      * right. exists before, after. rewrite append_cons in H. congruence.
Qed.

(** ** The membership test on the values of the service *)

Lemma py_in_error_dict (msg : string) :
  py_in "error" (VDict {[ "error" := msg ]}) = true.
Proof.
  simpl. apply bool_decide_eq_true. rewrite lookup_singleton_eq. eauto.
Qed.

Lemma py_in_summary (needle : string) (r : ComponentLatestReleaseSummary) :
  py_in needle (VSummary r) = false.
Proof. reflexivity. Qed.

Lemma keys_error_dict (msg : string) :
  keys (VDict {[ "error" := msg ]}) = {[ "error" ]}.
Proof. simpl. apply dom_singleton_L. Qed.

Lemma keys_summary (r : ComponentLatestReleaseSummary) :
  "error" ∉ keys (VSummary r).
Proof.
  simpl. intros H.
  repeat (apply elem_of_union in H as [H|H]);
    try (apply elem_of_singleton in H; discriminate).
  by apply elem_of_empty in H.
Qed.

Lemma keys_str (s : string) : "error" ∉ keys (VStr s).
Proof. simpl. apply not_elem_of_empty. Qed.

(** ** The call log *)

Lemma count_calls_app (p : Event -> bool) (l1 l2 : list Event) :
  count_calls p (l1 ++ l2) = count_calls p l1 + count_calls p l2.
Proof.
  induction l1 as [|ev l1 IH]; simpl; [reflexivity|]. rewrite IH. lia.
Qed.

Lemma summary_lookup_calls_snoc (log : list Event) (ev : Event) :
  summary_lookup_calls (log ++ [ev]) =
  summary_lookup_calls log + (if is_summary_call ev then 1 else 0).
Proof. unfold summary_lookup_calls. rewrite count_calls_app. simpl. lia. Qed.

(** ** The two steps and the orchestrator *)

Section ServiceProperties.

Variable get_oneagent_version_prompt : unit -> outcome string.
Variable get_oneagent_summary_prompt : string -> outcome string.

Abbreviation latest_version_try :=
  (_oneagent_latest_version_try get_oneagent_version_prompt).
Abbreviation latest_version :=
  (_oneagent_latest_version get_oneagent_version_prompt).
Abbreviation release_summary_try :=
  (_get_oneagent_release_summary_try get_oneagent_summary_prompt).
Abbreviation release_summary :=
  (_get_oneagent_release_summary get_oneagent_summary_prompt).
Abbreviation process :=
  (process_dynatrace_release_news
     get_oneagent_version_prompt get_oneagent_summary_prompt).

(** Step 1 always returns, with an error dictionary or a string, and
    makes no call that belongs to the summary lookup. *)
Lemma oneagent_latest_version_shape self log :
  exists v log',
    latest_version self log = (Returns v, log') /\
    (error_dict v \/ exists s, v = VStr s) /\
    summary_lookup_calls log' = summary_lookup_calls log.
Proof.
  unfold error_dict. unfold_service.
  repeat case_outcome; simpl;
    eexists _, _; (split; [reflexivity|]);
    rewrite ?summary_lookup_calls_snoc; simpl;
    (split; [eauto | lia]).
Qed.

(** Step 2 always returns, with an error dictionary or the parsed
    summary whose [latestVersion] has been set to the argument. *)
Lemma get_oneagent_release_summary_shape self version log :
  exists x log',
    release_summary self version log = (Returns x, log') /\
    (error_dict x \/ exists r0, x = VSummary (set_latestVersion version r0)).
Proof.
  unfold error_dict. unfold_service.
  repeat case_outcome; simpl; eexists _, _; (split; [reflexivity|]); eauto.
Qed.

(** One unfolding of the orchestrator over the results of its steps. *)
Lemma process_unfold self log :
  process self log =
    match latest_version self log with
    | (Returns v, log1) =>
        if py_in "error" v then (Returns (JSONResponse 500 v), log1)
        else
          match as_str v log1 with
          | (Returns s, log1') =>
              match release_summary self s log1' with
              | (Returns x, log2) =>
                  (Returns (if py_in "error" x
                            then JSONResponse 500 x else Value x), log2)
              | (Raises e, log2) => (Raises e, log2)
              end
          | (Raises e, log1') => (Raises e, log1')
          end
    | (Raises e, log1) => (Raises e, log1)
    end.
Proof.
  unfold process_dynatrace_release_news, _get_oneagent_latest_version, bind.
  destruct (latest_version self log) as [[v|e] log1]; [|reflexivity].
  destruct (py_in "error" v); [reflexivity|].
  destruct (as_str v log1) as [[s|e] log1']; [|reflexivity].
  destruct (release_summary self s log1') as [[x|e] log2]; [|reflexivity].
  destruct (py_in "error" x); reflexivity.
Qed.

(** The version lookup on a configured client that answers with a
    parsed record. *)
Lemma latest_version_success self client prompt response result log :
  openai_client self = Some client ->
  get_oneagent_version_prompt tt = Returns prompt ->
  responses_parse client "gpt-4o" prompt [web_search_preview]
    ComponentLatestReleaseVersion_fmt = Returns response ->
  output_parsed response = Some result ->
  latest_version self log =
    (Returns (VStr (version result)),
     log ++ [CallVersionPrompt;
             CallParse "gpt-4o" prompt [web_search_preview]
               ComponentLatestReleaseVersion_fmt]).
Proof.
  intros Hclient Hprompt Hparse Hsome.
  unfold_service. rewrite Hclient, Hprompt. cbv beta iota.
  rewrite Hparse. cbv beta iota. rewrite Hsome.
  rewrite <- app_assoc. reflexivity.
Qed.

(** The summary lookup on a configured client that answers with a
    parsed record. *)
Lemma release_summary_success self client version prompt response r0 log :
  openai_client self = Some client ->
  get_oneagent_summary_prompt version = Returns prompt ->
  responses_parse client "gpt-4o" prompt [web_search_preview]
    ComponentLatestReleaseSummary_fmt = Returns response ->
  output_parsed response = Some r0 ->
  release_summary self version log =
    (Returns (VSummary (set_latestVersion version r0)),
     log ++ [CallSummaryPrompt version;
             CallParse "gpt-4o" prompt [web_search_preview]
               ComponentLatestReleaseSummary_fmt]).
Proof.
  intros Hclient Hprompt Hparse Hsome.
  unfold_service. rewrite Hclient, Hprompt. cbv beta iota.
  rewrite Hparse. cbv beta iota. rewrite Hsome.
  rewrite <- app_assoc. reflexivity.
Qed.

Lemma latest_version_try_log client log :
  summary_lookup_calls (snd (latest_version_try client log)) =
  summary_lookup_calls log.
Proof.
  unfold_service.
  repeat case_outcome; simpl; rewrite ?summary_lookup_calls_snoc; simpl; lia.
Qed.

(** C3: with an unconfigured client handle the request ends in an error
    result with the message "OpenAI API key not configured.", and the
    call log stays empty: neither the prompt builder nor the completion
    client is invoked. *)
Theorem unconfigured_client_error_without_calls self :
  openai_client self = None ->
  run (process self) =
    (Returns (JSONResponse 500
                (VDict {[ "error" := "OpenAI API key not configured." ]})),
     []).
Proof.
  intros Hnone. unfold_service. rewrite Hnone.
  rewrite py_in_error_dict. reflexivity.
Qed.

(** C4: when the body of the version lookup raises [e], the request ends
    in an error result whose message is [str(e)], and no call of the
    summary lookup is made. *)
Theorem version_lookup_fault_short_circuits self client e log :
  openai_client self = Some client ->
  run (latest_version_try client) = (Raises e, log) ->
  run (process self) =
    (Returns (JSONResponse 500 (VDict {[ "error" := py_str e ]})), log) /\
  summary_lookup_calls log = 0.
Proof.
  intros Hclient Hraise. split.
  - unfold process_dynatrace_release_news, _get_oneagent_latest_version,
      _oneagent_latest_version, try_except, bind, ret, run in *.
    rewrite Hclient, Hraise, py_in_error_dict. reflexivity.
  - pose proof (latest_version_try_log client []) as Hlog.
    unfold run in Hraise. rewrite Hraise in Hlog. exact Hlog.
Qed.

(** C5: when the completion call of the version lookup succeeds but
    [output_parsed] is [None], the request ends in an error result with
    the fixed message "Failed to extract the latest OneAgent version.",
    after exactly the two calls of the version lookup: the summary
    lookup is skipped. *)
Theorem version_lookup_without_parsed_payload self client prompt response :
  openai_client self = Some client ->
  get_oneagent_version_prompt tt = Returns prompt ->
  responses_parse client "gpt-4o" prompt [web_search_preview]
    ComponentLatestReleaseVersion_fmt = Returns response ->
  output_parsed response = None ->
  let log := [CallVersionPrompt;
              CallParse "gpt-4o" prompt [web_search_preview]
                ComponentLatestReleaseVersion_fmt] in
  run (process self) =
    (Returns (JSONResponse 500
       (VDict {[ "error" := "Failed to extract the latest OneAgent version." ]})),
     log) /\
  summary_lookup_calls log = 0.
Proof.
  intros Hclient Hprompt Hparse Hnone log. split; [|reflexivity].
  unfold_service. rewrite Hclient, Hprompt. cbv beta iota.
  rewrite Hparse. cbv beta iota. rewrite Hnone, py_in_error_dict.
  reflexivity.
Qed.

(** C6: when the summary lookup is reached and its body raises [e], the
    request ends in an error result whose message is [str(e)]. *)
Theorem summary_lookup_fault_becomes_error self version e log1 log2 :
  run (latest_version self) = (Returns (VStr version), log1) ->
  py_in "error" (VStr version) = false ->
  release_summary_try self version log1 = (Raises e, log2) ->
  run (process self) =
    (Returns (JSONResponse 500 (VDict {[ "error" := py_str e ]})), log2).
Proof.
  intros Hstep1 Hreached Hraise.
  unfold process_dynatrace_release_news, _get_oneagent_latest_version,
    _get_oneagent_release_summary, as_str, try_except, bind, ret, run in *.
  rewrite Hstep1, Hreached, Hraise, py_in_error_dict. reflexivity.
Qed.

(** What the orchestrator does hold to, whatever the prompt builders and
    the completion client return or raise: it returns, and the result is
    the summary record, a 500 response whose content is an error
    dictionary, or (for a version string containing "error") a 500
    response whose content is that version string. *)
Lemma process_never_raises self log :
  exists r log',
    process self log = (Returns r, log') /\
    ((exists rec, r = Value (VSummary rec)) \/
     (exists msg, r = JSONResponse 500 (VDict {[ "error" := msg ]})) \/
     (exists v, r = JSONResponse 500 (VStr v) /\
                str_contains "error" v = true)).
Proof.
  destruct (oneagent_latest_version_shape self log)
    as (v & log1 & Hstep1 & Hshape & _).
  unfold process_dynatrace_release_news, _get_oneagent_latest_version, bind.
  rewrite Hstep1.
  destruct Hshape as [[msg ->]|[s ->]].
  - rewrite py_in_error_dict. unfold ret. eauto 10.
  - destruct (py_in "error" (VStr s)) eqn:Hin.
    + unfold ret. eexists _, _. split; [reflexivity|]. eauto 10.
    + simpl.
      destruct (get_oneagent_release_summary_shape self s log1)
        as (x & log2 & Hstep2 & Hshape2).
      unfold ret at 1. rewrite Hstep2.
      destruct Hshape2 as [[msg ->]|[r0 ->]].
      * rewrite py_in_error_dict. unfold ret. eauto 10.
      * rewrite py_in_summary. unfold ret. eauto 10.
Qed.

(** C1: when the version lookup succeeds with version [v] and the
    summary lookup of the same request receives a parsed summary [r0],
    whatever [latestVersion r0] holds, the request returns the summary
    record with [latestVersion] equal to [v] (and the rest of [r0]
    unchanged). *)
Theorem returned_latestVersion_is_lookup_version
    self client prompt1 prompt2 v r0 :
  openai_client self = Some client ->
  get_oneagent_version_prompt tt = Returns prompt1 ->
  responses_parse client "gpt-4o" prompt1 [web_search_preview]
    ComponentLatestReleaseVersion_fmt =
    Returns (mkResponse (Some (mkVersion v))) ->
  get_oneagent_summary_prompt v = Returns prompt2 ->
  responses_parse client "gpt-4o" prompt2 [web_search_preview]
    ComponentLatestReleaseSummary_fmt =
    Returns (mkResponse (Some r0)) ->
  0 < summary_lookup_calls (snd (run (process self))) ->
  exists r,
    fst (run (process self)) = Returns (Value (VSummary r)) /\
    latestVersion r = v /\
    summary r = summary r0.
Proof.
  intros Hclient Hprompt1 Hparse1 Hprompt2 Hparse2.
  unfold run. rewrite process_unfold.
  rewrite (latest_version_success self client prompt1 _ (mkVersion v) []
             Hclient Hprompt1 Hparse1 eq_refl).
  simpl version. destruct (py_in "error" (VStr v)) eqn:Hin.
  - simpl. unfold summary_lookup_calls. simpl. lia.
  - intros _. unfold as_str, ret.
    rewrite (release_summary_success self client v prompt2 _ r0 _
               Hclient Hprompt2 Hparse2 eq_refl).
    rewrite py_in_summary.
    exists (set_latestVersion v r0). repeat split.
Qed.

(** The key sets of the step values: either step returns an error value
    with exactly the one key [error], or a success value (the version
    string in step 1, the summary record in step 2) without an [error]
    key.  This is about keys only; the test the orchestrator applies to
    the value of step 1 is [py_in], which is not the key test on a
    string. *)
Lemma step_values_have_exclusive_shapes self version log :
  (exists v log',
     latest_version self log = (Returns v, log') /\
     (error_dict v /\ keys v = {[ "error" ]} \/
      (exists s, v = VStr s) /\ "error" ∉ keys v)) /\
  (exists x log',
     release_summary self version log = (Returns x, log') /\
     (error_dict x /\ keys x = {[ "error" ]} \/
      (exists r, x = VSummary r) /\ "error" ∉ keys x)) /\
  (forall v : PyValue, keys v = {[ "error" ]} -> "error" ∉ keys v -> False).
Proof.
  split; [|split].
  - destruct (oneagent_latest_version_shape self log)
      as (v & log' & Hrun & Hshape & _).
    exists v, log'. split; [exact Hrun|].
    destruct Hshape as [Herr|[s Hs]].
    + left. split; [exact Herr|].
      destruct Herr as [msg ->]. apply keys_error_dict.
    + right. split; [eauto|]. rewrite Hs. apply keys_str.
  - destruct (get_oneagent_release_summary_shape self version log)
      as (x & log' & Hrun & Hshape).
    exists x, log'. split; [exact Hrun|].
    destruct Hshape as [Herr|[r0 Hr]].
    + left. split; [exact Herr|].
      destruct Herr as [msg ->]. apply keys_error_dict.
    + right. split; [eauto|]. rewrite Hr. apply keys_summary.
  - intros v Hkeys Hnot. apply Hnot. rewrite Hkeys.
    apply elem_of_singleton. reflexivity.
Qed.

(** C10: when the version lookup succeeds with a version string that
    contains the substring "error", the request ends in a 500 response
    whose content is that bare string, after exactly the two calls of
    the version lookup: the summary lookup is not invoked. *)
Theorem version_containing_error_short_circuits
    self client prompt response result :
  openai_client self = Some client ->
  get_oneagent_version_prompt tt = Returns prompt ->
  responses_parse client "gpt-4o" prompt [web_search_preview]
    ComponentLatestReleaseVersion_fmt = Returns response ->
  output_parsed response = Some result ->
  (exists before after, version result = before +:+ "error" +:+ after) ->
  let log := [CallVersionPrompt;
              CallParse "gpt-4o" prompt [web_search_preview]
                ComponentLatestReleaseVersion_fmt] in
  run (process self) =
    (Returns (JSONResponse 500 (VStr (version result))), log) /\
  summary_lookup_calls log = 0.
Proof.
  intros Hclient Hprompt Hparse Hsome Hsub log. split; [|reflexivity].
  apply str_contains_spec in Hsub.
  unfold run. rewrite process_unfold.
  rewrite (latest_version_success self client prompt response result []
             Hclient Hprompt Hparse Hsome).
  simpl py_in. rewrite Hsub. reflexivity.
Qed.

(** When step 1 returns an error dictionary, that dictionary is the
    content of the 500 response. *)
Lemma version_error_dict_is_response_content self msg log :
  run (latest_version self) = (Returns (VDict {[ "error" := msg ]}), log) ->
  run (process self) =
    (Returns (JSONResponse 500 (VDict {[ "error" := msg ]})), log).
Proof.
  intros Hstep1.
  unfold process_dynatrace_release_news, _get_oneagent_latest_version,
    bind, ret, run in *.
  rewrite Hstep1, py_in_error_dict. reflexivity.
Qed.

(** When step 2 is reached and returns an error dictionary, that
    dictionary is the content of the 500 response. *)
Lemma summary_error_dict_is_response_content self version msg log1 log2 :
  run (latest_version self) = (Returns (VStr version), log1) ->
  py_in "error" (VStr version) = false ->
  release_summary self version log1 =
    (Returns (VDict {[ "error" := msg ]}), log2) ->
  run (process self) =
    (Returns (JSONResponse 500 (VDict {[ "error" := msg ]})), log2).
Proof.
  intros Hstep1 Hreached Hstep2.
  unfold run in *. rewrite process_unfold, Hstep1, Hreached.
  unfold as_str, ret. rewrite Hstep2, py_in_error_dict. reflexivity.
Qed.

End ServiceProperties.

(** * The service on concrete collaborators *)

Lemma scenario_latestVersion_overwritten :
  exists r,
    fst (run (process_with_doubles scenario_service)) =
      Returns (Value (VSummary r)) /\
    latestVersion r = "24.5" /\
    summary r = summary (mkSummary "unset" "Improved X").
Proof.
  apply (returned_latestVersion_is_lookup_version
           version_prompt_double summary_prompt_double scenario_service
           (scripted_client (answers (mkVersion "24.5"))
                            (answers (mkSummary "unset" "Improved X")))
           "What is the latest OneAgent version?"
           "Summarise the release notes of OneAgent 24.5");
    try reflexivity.
  vm_compute. lia.
Defined.

Example scenario_output :
  fst (run (process_with_doubles scenario_service)) =
    Returns (Value (VSummary (mkSummary "24.5" "Improved X"))).
Proof. reflexivity. Qed.

Lemma unconfigured_service_makes_no_call :
  run (process_with_doubles unconfigured_service) =
    (Returns (JSONResponse 500
                (VDict {[ "error" := "OpenAI API key not configured." ]})),
     []).
Proof.
  apply (unconfigured_client_error_without_calls
           version_prompt_double summary_prompt_double unconfigured_service).
  reflexivity.
Defined.

Lemma rate_limited_version_lookup :
  run (process_with_doubles rate_limited_service) =
    (Returns (JSONResponse 500
       (VDict {[ "error" := "Error code: 429 - rate limit exceeded" ]})),
     [CallVersionPrompt;
      CallParse "gpt-4o" "What is the latest OneAgent version?"
        [web_search_preview] ComponentLatestReleaseVersion_fmt]) /\
  summary_lookup_calls
    [CallVersionPrompt;
     CallParse "gpt-4o" "What is the latest OneAgent version?"
       [web_search_preview] ComponentLatestReleaseVersion_fmt] = 0.
Proof.
  apply (version_lookup_fault_short_circuits
           version_prompt_double summary_prompt_double rate_limited_service
           (scripted_client rate_limited (answers (mkSummary "" "Improved X")))
           (mkException "RateLimitError" "Error code: 429 - rate limit exceeded"));
    reflexivity.
Defined.

(** The prompt builder itself raises: no call reaches the client. *)
Example failing_version_prompt_output :
  run (process_dynatrace_release_news failing_version_prompt
         summary_prompt_double scenario_service) =
    (Returns (JSONResponse 500 (VDict {[ "error" := "'version_template'" ]})),
     [CallVersionPrompt]).
Proof. vm_compute. reflexivity. Qed.

Lemma empty_version_lookup :
  let log := [CallVersionPrompt;
              CallParse "gpt-4o" "What is the latest OneAgent version?"
                [web_search_preview] ComponentLatestReleaseVersion_fmt] in
  run (process_with_doubles empty_version_service) =
    (Returns (JSONResponse 500
       (VDict {[ "error" := "Failed to extract the latest OneAgent version." ]})),
     log) /\
  summary_lookup_calls log = 0.
Proof.
  apply (version_lookup_without_parsed_payload
           version_prompt_double summary_prompt_double empty_version_service
           (scripted_client answers_nothing (answers (mkSummary "" "Improved X")))
           "What is the latest OneAgent version?" (mkResponse None));
    reflexivity.
Defined.

Lemma rate_limited_summary_lookup :
  run (process_with_doubles rate_limited_summary_service) =
    (Returns (JSONResponse 500
       (VDict {[ "error" := "Error code: 429 - rate limit exceeded" ]})),
     [CallVersionPrompt;
      CallParse "gpt-4o" "What is the latest OneAgent version?"
        [web_search_preview] ComponentLatestReleaseVersion_fmt;
      CallSummaryPrompt "1.2.3";
      CallParse "gpt-4o" "Summarise the release notes of OneAgent 1.2.3"
        [web_search_preview] ComponentLatestReleaseSummary_fmt]).
Proof.
  apply (summary_lookup_fault_becomes_error
           version_prompt_double summary_prompt_double
           rate_limited_summary_service "1.2.3"
           (mkException "RateLimitError" "Error code: 429 - rate limit exceeded")
           [CallVersionPrompt;
            CallParse "gpt-4o" "What is the latest OneAgent version?"
              [web_search_preview] ComponentLatestReleaseVersion_fmt]);
    reflexivity.
Defined.

(** The summary prompt builder raises. *)
Example failing_summary_prompt_output :
  run (process_dynatrace_release_news version_prompt_double
         failing_summary_prompt scenario_service) =
    (Returns (JSONResponse 500 (VDict {[ "error" := "'summary_template'" ]})),
     [CallVersionPrompt;
      CallParse "gpt-4o" "What is the latest OneAgent version?"
        [web_search_preview] ComponentLatestReleaseVersion_fmt;
      CallSummaryPrompt "24.5"]).
Proof. vm_compute. reflexivity. Qed.

Lemma error_fix_version_short_circuits :
  let log := [CallVersionPrompt;
              CallParse "gpt-4o" "What is the latest OneAgent version?"
                [web_search_preview] ComponentLatestReleaseVersion_fmt] in
  run (process_with_doubles error_fix_service) =
    (Returns (JSONResponse 500 (VStr "1.2.3-error-fix")), log) /\
  summary_lookup_calls log = 0.
Proof.
  apply (version_containing_error_short_circuits
           version_prompt_double summary_prompt_double error_fix_service
           (scripted_client (answers (mkVersion "1.2.3-error-fix"))
                            (answers (mkSummary "" "Improved X")))
           "What is the latest OneAgent version?"
           (mkResponse (Some (mkVersion "1.2.3-error-fix")))
           (mkVersion "1.2.3-error-fix"));
    try reflexivity.
  exists "1.2.3-", "-fix". reflexivity.
Defined.

(** C2: on the version "1.2.3-error-fix" step 1 succeeds with a string,
    which has no [error] key, and yet the orchestrator treats it as a
    failure signal: it answers 500 and never starts the summary lookup.
    The failure test is therefore not "exactly when the value has an
    [error] key". *)
Theorem version_string_taken_for_failure_signal :
  let v := VStr "1.2.3-error-fix" in
  fst (run (_oneagent_latest_version version_prompt_double error_fix_service)) =
    Returns v /\
  ("error" ∉ keys v) /\
  fst (run (process_with_doubles error_fix_service)) =
    Returns (JSONResponse 500 v) /\
  summary_lookup_calls (snd (run (process_with_doubles error_fix_service))) = 0.
Proof.
  intros v. split; [reflexivity|]. split; [apply keys_str|].
  split; reflexivity.
Qed.

(** C8: on the version "1.2.3-error-fix" the request fails with status
    500, but the content of the response is the bare version string: it
    is not a record with the single field [error], and the version alone
    is handed out without its summary. *)
Theorem failure_content_can_be_bare_version :
  exists content,
    fst (run (process_with_doubles error_fix_service)) =
      Returns (JSONResponse 500 content) /\
    content = VStr "1.2.3-error-fix" /\
    (keys content <> {[ "error" ]}) /\
    ~ error_dict content.
Proof.
  exists (VStr "1.2.3-error-fix"). split; [reflexivity|].
  split; [reflexivity|]. split.
  - intros Hkeys. apply (keys_str "1.2.3-error-fix"). rewrite Hkeys.
    apply elem_of_singleton. reflexivity.
  - intros [msg Hmsg]. discriminate Hmsg.
Qed.

(** C7: on the version "1.2.3-error-fix" no collaborator raises and the
    request returns, but what the caller observes is neither of the two
    outcomes: it is not a success payload and it is not a failure value
    carrying a message.  It is a 500 response whose content is the
    looked-up version string, with no dictionary and no message. *)
Theorem failure_value_can_carry_no_message :
  let r := fst (run (process_with_doubles error_fix_service)) in
  r = Returns (JSONResponse 500 (VStr "1.2.3-error-fix")) /\
  (forall payload, r <> Returns (Value payload)) /\
  (forall status d, r <> Returns (JSONResponse status (VDict d))).
Proof.
  intros r. split; [reflexivity|]. split.
  - intros payload Hr. discriminate Hr.
  - intros status d Hr. discriminate Hr.
Qed.


(** * Call sequence and data flow of a request *)

Section ServiceCalls.

Variable get_oneagent_version_prompt : unit -> outcome string.
Variable get_oneagent_summary_prompt : string -> outcome string.

Abbreviation latest_version :=
  (_oneagent_latest_version get_oneagent_version_prompt).
Abbreviation release_summary :=
  (_get_oneagent_release_summary get_oneagent_summary_prompt).
Abbreviation process :=
  (process_dynatrace_release_news
     get_oneagent_version_prompt get_oneagent_summary_prompt).
Abbreviation parse_call prompt text_format :=
  (CallParse "gpt-4o" prompt [web_search_preview] text_format).

(** The paths through [_oneagent_latest_version], with the calls each
    one adds to the log. *)
Lemma latest_version_cases self log :
  (exists msg l,
     latest_version self log =
       (Returns (VDict {[ "error" := msg ]}), log ++ l) /\
     (l = [] /\ openai_client self = None \/
      l = [CallVersionPrompt] /\
        (exists e, get_oneagent_version_prompt tt = Raises e) \/
      exists prompt,
        get_oneagent_version_prompt tt = Returns prompt /\
        l = [CallVersionPrompt;
             parse_call prompt ComponentLatestReleaseVersion_fmt])) \/
  (exists client prompt response result,
     openai_client self = Some client /\
     get_oneagent_version_prompt tt = Returns prompt /\
     responses_parse client "gpt-4o" prompt [web_search_preview]
       ComponentLatestReleaseVersion_fmt = Returns response /\
     output_parsed response = Some result /\
     latest_version self log =
       (Returns (VStr (version result)),
        log ++ [CallVersionPrompt;
                parse_call prompt ComponentLatestReleaseVersion_fmt])).
Proof.
  unfold_service.
  destruct (openai_client self) as [client|] eqn:Hclient.
  - destruct (get_oneagent_version_prompt tt) as [prompt|e] eqn:Hprompt;
      cbv beta iota.
    + destruct (responses_parse client "gpt-4o" prompt [web_search_preview]
                  ComponentLatestReleaseVersion_fmt) as [response|e] eqn:Hparse;
        cbv beta iota.
      * destruct (output_parsed response) as [result|] eqn:Hsome.
        -- right. exists client, prompt, response, result.
           rewrite <- app_assoc. auto.
        -- left. eexists _, _. rewrite <- app_assoc.
           split; [reflexivity|]. right. right. eauto.
      * left. eexists _, _. rewrite <- app_assoc.
        split; [reflexivity|]. right. right. eauto.
    + left. eexists _, _. split; [reflexivity|]. right. left. eauto.
  - left. eexists _, []. rewrite app_nil_r. split; [reflexivity|]. auto.
Qed.

(** The paths through [_get_oneagent_release_summary]. *)
Lemma release_summary_cases self version log :
  (exists msg l,
     release_summary self version log =
       (Returns (VDict {[ "error" := msg ]}), log ++ l) /\
     (l = [CallSummaryPrompt version] /\
        ((exists e, get_oneagent_summary_prompt version = Raises e) \/
         openai_client self = None) \/
      exists client prompt,
        openai_client self = Some client /\
        get_oneagent_summary_prompt version = Returns prompt /\
        l = [CallSummaryPrompt version;
             parse_call prompt ComponentLatestReleaseSummary_fmt] /\
        ((exists e,
            responses_parse client "gpt-4o" prompt [web_search_preview]
              ComponentLatestReleaseSummary_fmt = Raises e) \/
         (exists response,
            responses_parse client "gpt-4o" prompt [web_search_preview]
              ComponentLatestReleaseSummary_fmt = Returns response /\
            output_parsed response = None /\
            msg = "Failed to get summary from OpenAI.")))) \/
  (exists client prompt response r0,
     openai_client self = Some client /\
     get_oneagent_summary_prompt version = Returns prompt /\
     responses_parse client "gpt-4o" prompt [web_search_preview]
       ComponentLatestReleaseSummary_fmt = Returns response /\
     output_parsed response = Some r0 /\
     release_summary self version log =
       (Returns (VSummary (set_latestVersion version r0)),
        log ++ [CallSummaryPrompt version;
                parse_call prompt ComponentLatestReleaseSummary_fmt])).
Proof.
  unfold_service.
  destruct (get_oneagent_summary_prompt version) as [prompt|e] eqn:Hprompt;
    cbv beta iota.
  - destruct (openai_client self) as [client|] eqn:Hclient; cbv beta iota.
    + destruct (responses_parse client "gpt-4o" prompt [web_search_preview]
                  ComponentLatestReleaseSummary_fmt) as [response|e] eqn:Hparse;
        cbv beta iota.
      * destruct (output_parsed response) as [r0|] eqn:Hsome.
        -- right. exists client, prompt, response, r0.
           rewrite <- app_assoc. auto.
        -- left. eexists _, _. rewrite <- app_assoc.
           split; [reflexivity|]. right. exists client, prompt.
           do 3 (split; [reflexivity|]). right. eauto.
      * left. eexists _, _. rewrite <- app_assoc.
        split; [reflexivity|]. right. exists client, prompt.
        do 3 (split; [reflexivity|]). left. eauto.
    + left. eexists _, _. split; [reflexivity|]. left. auto.
  - left. eexists _, _. split; [reflexivity|]. left. eauto.
Qed.

(** The paths through [process_dynatrace_release_news], with the
    response and the complete call log of each. *)
Lemma process_cases self :
  (exists msg l,
     run (process self) =
       (Returns (JSONResponse 500 (VDict {[ "error" := msg ]})), l) /\
     (l = [] /\ openai_client self = None \/
      l = [CallVersionPrompt] /\
        (exists e, get_oneagent_version_prompt tt = Raises e) \/
      exists prompt,
        get_oneagent_version_prompt tt = Returns prompt /\
        l = [CallVersionPrompt;
             parse_call prompt ComponentLatestReleaseVersion_fmt])) \/
  (exists client prompt1 response1 result,
     openai_client self = Some client /\
     get_oneagent_version_prompt tt = Returns prompt1 /\
     responses_parse client "gpt-4o" prompt1 [web_search_preview]
       ComponentLatestReleaseVersion_fmt = Returns response1 /\
     output_parsed response1 = Some result /\
     run (latest_version self) =
       (Returns (VStr (version result)),
        [CallVersionPrompt;
         parse_call prompt1 ComponentLatestReleaseVersion_fmt]) /\
     (py_in "error" (VStr (version result)) = true /\
      run (process self) =
        (Returns (JSONResponse 500 (VStr (version result))),
         [CallVersionPrompt;
          parse_call prompt1 ComponentLatestReleaseVersion_fmt]) \/
      py_in "error" (VStr (version result)) = false /\
      ((exists msg l2,
          run (process self) =
            (Returns (JSONResponse 500 (VDict {[ "error" := msg ]})),
             [CallVersionPrompt;
              parse_call prompt1 ComponentLatestReleaseVersion_fmt] ++ l2) /\
          (l2 = [CallSummaryPrompt (version result)] \/
           exists prompt2,
             get_oneagent_summary_prompt (version result) = Returns prompt2 /\
             l2 = [CallSummaryPrompt (version result);
                   parse_call prompt2 ComponentLatestReleaseSummary_fmt])) \/
       (exists prompt2 response2 r0,
          get_oneagent_summary_prompt (version result) = Returns prompt2 /\
          responses_parse client "gpt-4o" prompt2 [web_search_preview]
            ComponentLatestReleaseSummary_fmt = Returns response2 /\
          output_parsed response2 = Some r0 /\
          run (process self) =
            (Returns (Value (VSummary
                        (set_latestVersion (version result) r0))),
             [CallVersionPrompt;
              parse_call prompt1 ComponentLatestReleaseVersion_fmt;
              CallSummaryPrompt (version result);
              parse_call prompt2 ComponentLatestReleaseSummary_fmt]))))).
Proof.
  unfold run. rewrite (process_unfold _ _ self []).
  destruct (latest_version_cases self [])
    as [(msg & l & Hrun & Hl)
       |(client & prompt1 & response1 & result & Hc & Hp1 & Hr1 & Ho1 & Hrun)];
    rewrite Hrun.
  - left. rewrite py_in_error_dict. exists msg, l. split; [reflexivity|].
    exact Hl.
  - right. exists client, prompt1, response1, result.
    do 4 (split; [assumption|]). split; [reflexivity|].
    destruct (py_in "error" (VStr (version result))) eqn:Hin.
    + left. split; reflexivity.
    + right. split; [reflexivity|]. unfold as_str, ret.
      destruct (release_summary_cases self (version result)
                  ([] ++ [CallVersionPrompt;
                          parse_call prompt1 ComponentLatestReleaseVersion_fmt]))
        as [(msg & l2 & Hrun2 & Hl2)
           |(client' & prompt2 & response2 & r0 & Hc' & Hp2 & Hr2 & Ho2 & Hrun2)];
        rewrite Hrun2.
      * left. rewrite py_in_error_dict. exists msg, l2.
        split; [reflexivity|].
        destruct Hl2 as [[-> _]|(c & p2 & _ & Hp2 & -> & _)]; [left|right];
          eauto.
      * right. rewrite py_in_summary.
        assert (client' = client) as -> by congruence.
        exists prompt2, response2, r0. do 3 (split; [assumption|]).
        reflexivity.
Qed.

(** X1: when the version lookup succeeds, the test of line 40 lets the
    version through, and the completion call of the summary lookup
    succeeds with [output_parsed] equal to [None], the request ends in a
    500 response with the fixed message "Failed to get summary from
    OpenAI.", after all four calls. *)
Theorem summary_lookup_without_parsed_payload
    self client prompt1 response1 result prompt2 response2 :
  openai_client self = Some client ->
  get_oneagent_version_prompt tt = Returns prompt1 ->
  responses_parse client "gpt-4o" prompt1 [web_search_preview]
    ComponentLatestReleaseVersion_fmt = Returns response1 ->
  output_parsed response1 = Some result ->
  py_in "error" (VStr (version result)) = false ->
  get_oneagent_summary_prompt (version result) = Returns prompt2 ->
  responses_parse client "gpt-4o" prompt2 [web_search_preview]
    ComponentLatestReleaseSummary_fmt = Returns response2 ->
  output_parsed response2 = None ->
  run (process self) =
    (Returns (JSONResponse 500
       (VDict {[ "error" := "Failed to get summary from OpenAI." ]})),
     [CallVersionPrompt;
      parse_call prompt1 ComponentLatestReleaseVersion_fmt;
      CallSummaryPrompt (version result);
      parse_call prompt2 ComponentLatestReleaseSummary_fmt]).
Proof.
  intros Hclient Hprompt1 Hparse1 Hsome Hreached Hprompt2 Hparse2 Hnone.
  unfold run. rewrite process_unfold.
  rewrite (latest_version_success _ self client prompt1 response1 result []
             Hclient Hprompt1 Hparse1 Hsome).
  rewrite Hreached. unfold as_str, ret.
  unfold _get_oneagent_release_summary, _get_oneagent_release_summary_try,
    try_except, bind, call, get_responses, ret.
  rewrite Hprompt2, Hclient. cbv beta iota.
  rewrite Hparse2. cbv beta iota. rewrite Hnone, py_in_error_dict.
  reflexivity.
Qed.

(** X2: a request never retries and never reorders its calls: whatever
    the collaborators do, its call log is a prefix of the sequence
    version prompt, version completion, summary prompt, summary
    completion, so it makes at most four calls. *)
Theorem request_calls_prefix_of_pipeline self :
  exists prompt1 v prompt2,
    snd (run (process self)) `prefix_of`
      [CallVersionPrompt;
       parse_call prompt1 ComponentLatestReleaseVersion_fmt;
       CallSummaryPrompt v;
       parse_call prompt2 ComponentLatestReleaseSummary_fmt] /\
    length (snd (run (process self))) <= 4.
Proof.
  destruct (process_cases self)
    as [(msg & l & Hrun & Hl)
       |(client & prompt1 & response1 & result & _ & _ & _ & _ & _ & Hrest)].
  - rewrite Hrun. simpl snd.
    destruct Hl as [[-> _]|[[-> _]|(prompt & _ & ->)]].
    + exists "", "", "". split; [eexists; reflexivity | simpl; lia].
    + exists "", "", "". split; [eexists; reflexivity | simpl; lia].
    + exists prompt, "", "". split; [eexists; reflexivity | simpl; lia].
  - destruct Hrest as [[_ Hrun]|[_ [(msg & l2 & Hrun & Hl2)|Hok]]].
    + rewrite Hrun. exists prompt1, "", "".
      split; [eexists; reflexivity | simpl; lia].
    + rewrite Hrun. simpl snd.
      destruct Hl2 as [->|(prompt2 & _ & ->)].
      * exists prompt1, (version result), "".
        split; [eexists; reflexivity | simpl; lia].
      * exists prompt1, (version result), prompt2.
        split; [eexists; reflexivity | simpl; lia].
    + destruct Hok as (prompt2 & response2 & r0 & _ & _ & _ & Hrun).
      rewrite Hrun. exists prompt1, (version result), prompt2.
      split; [exists []; reflexivity | simpl; lia].
Qed.

(** X3: the completion client is asked for the version only with the
    model "gpt-4o", the web-search tool and the very prompt that the
    version prompt builder returned. *)
Theorem version_completion_call_uses_built_prompt self model input tools :
  In (CallParse model input tools ComponentLatestReleaseVersion_fmt)
     (snd (run (process self))) ->
  model = "gpt-4o" /\
  tools = [web_search_preview] /\
  get_oneagent_version_prompt tt = Returns input.
Proof.
  destruct (process_cases self)
    as [(msg & l & Hrun & Hl)
       |(client & prompt1 & response1 & result & _ & Hp1 & _ & _ & _ & Hrest)].
  - rewrite Hrun. simpl snd.
    destruct Hl as [[-> _]|[[-> _]|(prompt & Hp & ->)]]; simpl; intros Hin.
    + contradiction.
    + destruct Hin as [Hin|[]]; discriminate.
    + destruct Hin as [Hin|[Hin|[]]]; [discriminate|].
      injection Hin as <- <- <-. auto.
  - destruct Hrest as [[_ Hrun]|[_ [(msg & l2 & Hrun & Hl2)|Hok]]].
    + rewrite Hrun. simpl. intros [Hin|[Hin|[]]]; [discriminate|].
      injection Hin as <- <- <-. auto.
    + rewrite Hrun. simpl snd.
      destruct Hl2 as [->|(prompt2 & _ & ->)]; simpl;
        intros [Hin|[Hin|Hin]]; try discriminate.
      * injection Hin as <- <- <-. auto.
      * destruct Hin as [Hin|[]]; discriminate.
      * injection Hin as <- <- <-. auto.
      * destruct Hin as [Hin|[Hin|[]]]; discriminate.
    + destruct Hok as (prompt2 & response2 & r0 & _ & _ & _ & Hrun).
      rewrite Hrun. simpl.
      intros [Hin|[Hin|[Hin|[Hin|[]]]]]; try discriminate.
      injection Hin as <- <- <-. auto.
Qed.

(** X4: the completion client is asked for the summary only with the
    model "gpt-4o", the web-search tool and the prompt that the summary
    prompt builder returned for the version string step 1 returned, only
    when the test of line 40 let that version through, and only after
    the summary prompt builder was called with that version: the call of
    the builder and the completion call are, in this order, the last two
    calls of the request. *)
Theorem summary_completion_call_uses_looked_up_version
    self model input tools :
  In (CallParse model input tools ComponentLatestReleaseSummary_fmt)
     (snd (run (process self))) ->
  model = "gpt-4o" /\
  tools = [web_search_preview] /\
  exists v,
    fst (run (latest_version self)) = Returns (VStr v) /\
    py_in "error" (VStr v) = false /\
    get_oneagent_summary_prompt v = Returns input /\
    In (CallSummaryPrompt v) (snd (run (process self))) /\
    exists before,
      snd (run (process self)) =
        before ++
        [CallSummaryPrompt v;
         CallParse model input tools ComponentLatestReleaseSummary_fmt].
Proof.
  destruct (process_cases self)
    as [(msg & l & Hrun & Hl)
       |(client & prompt1 & response1 & result & _ & _ & _ & _ & Hv & Hrest)].
  - rewrite Hrun. simpl snd.
    destruct Hl as [[-> _]|[[-> _]|(prompt & Hp & ->)]]; simpl; intros Hin.
    + contradiction.
    + destruct Hin as [Hin|[]]; discriminate.
    + destruct Hin as [Hin|[Hin|[]]]; discriminate.
  - rewrite Hv. simpl fst.
    destruct Hrest as [[_ Hrun]|[Hreached [(msg & l2 & Hrun & Hl2)|Hok]]].
    + rewrite Hrun. simpl. intros [Hin|[Hin|[]]]; discriminate.
    + rewrite Hrun. simpl snd.
      destruct Hl2 as [->|(prompt2 & Hp2 & ->)]; simpl;
        intros [Hin|[Hin|[Hin|Hin]]]; try discriminate.
      * contradiction.
      * destruct Hin as [Hin|[]]. injection Hin as <- <- <-.
        split; [reflexivity|]. split; [reflexivity|].
        exists (version result).
        split; [reflexivity|]. split; [exact Hreached|].
        split; [exact Hp2|]. split; [auto 10|].
        exists [CallVersionPrompt;
                parse_call prompt1 ComponentLatestReleaseVersion_fmt].
        reflexivity.
    + destruct Hok as (prompt2 & response2 & r0 & Hp2 & _ & _ & Hrun).
      rewrite Hrun. simpl.
      intros [Hin|[Hin|[Hin|[Hin|[]]]]]; try discriminate.
      injection Hin as <- <- <-.
      split; [reflexivity|]. split; [reflexivity|].
      exists (version result).
      split; [reflexivity|]. split; [exact Hreached|].
      split; [exact Hp2|]. split; [auto 10|].
      exists [CallVersionPrompt;
              parse_call prompt1 ComponentLatestReleaseVersion_fmt].
      reflexivity.
Qed.

(** X5: a request returns a plain value (a success) only when the whole
    pipeline ran: the client is configured, both prompt builders and both
    completion calls returned, both payloads were parsed, the test of
    line 40 let the version through; the value is then the parsed summary
    with [latestVersion] set to the looked-up version, and the log holds
    exactly the four calls. *)
Theorem success_only_after_full_pipeline self x :
  fst (run (process self)) = Returns (Value x) ->
  exists client prompt1 response1 result prompt2 response2 r0,
    openai_client self = Some client /\
    get_oneagent_version_prompt tt = Returns prompt1 /\
    responses_parse client "gpt-4o" prompt1 [web_search_preview]
      ComponentLatestReleaseVersion_fmt = Returns response1 /\
    output_parsed response1 = Some result /\
    py_in "error" (VStr (version result)) = false /\
    get_oneagent_summary_prompt (version result) = Returns prompt2 /\
    responses_parse client "gpt-4o" prompt2 [web_search_preview]
      ComponentLatestReleaseSummary_fmt = Returns response2 /\
    output_parsed response2 = Some r0 /\
    x = VSummary (set_latestVersion (version result) r0) /\
    snd (run (process self)) =
      [CallVersionPrompt;
       parse_call prompt1 ComponentLatestReleaseVersion_fmt;
       CallSummaryPrompt (version result);
       parse_call prompt2 ComponentLatestReleaseSummary_fmt].
Proof.
  destruct (process_cases self)
    as [(msg & l & Hrun & _)
       |(client & prompt1 & response1 & result
         & Hc & Hp1 & Hr1 & Ho1 & _ & Hrest)].
  - rewrite Hrun. simpl. discriminate.
  - destruct Hrest as [[_ Hrun]|[Hreached [(msg & l2 & Hrun & _)|Hok]]].
    + rewrite Hrun. simpl. discriminate.
    + rewrite Hrun. simpl. discriminate.
    + destruct Hok as (prompt2 & response2 & r0 & Hp2 & Hr2 & Ho2 & Hrun).
      rewrite Hrun. simpl. intros Hx. injection Hx as <-.
      exists client, prompt1, response1, result, prompt2, response2, r0.
      auto 12.
Qed.

(** X6: [_get_oneagent_release_summary] has no guard for an unconfigured
    client: called with the handle [None] it still invokes the summary
    prompt builder, once, reaches no completion call, and returns an
    error dictionary instead of raising. *)
Theorem release_summary_on_unconfigured_client self version :
  openai_client self = None ->
  exists msg,
    run (release_summary self version) =
      (Returns (VDict {[ "error" := msg ]}), [CallSummaryPrompt version]).
Proof.
  intros Hnone.
  destruct (release_summary_cases self version [])
    as [(msg & l & Hrun & Hl)|(client & _ & _ & _ & Hc & _)];
    [|congruence].
  unfold run. rewrite Hrun. exists msg.
  destruct Hl as [[-> _]|(client & _ & Hc & _)]; [reflexivity|congruence].
Qed.

(** X7: a looked-up version string that does not contain the substring
    "error" always reaches step 2: the summary prompt builder is called
    with exactly that string right after the two calls of the version
    lookup, and the request ends either with the summary record carrying
    that version or with a 500 response holding an error dictionary. *)
Theorem version_without_error_reaches_summary_lookup
    self client prompt response result :
  openai_client self = Some client ->
  get_oneagent_version_prompt tt = Returns prompt ->
  responses_parse client "gpt-4o" prompt [web_search_preview]
    ComponentLatestReleaseVersion_fmt = Returns response ->
  output_parsed response = Some result ->
  ~ (exists before after, version result = before +:+ "error" +:+ after) ->
  exists rest,
    snd (run (process self)) =
      [CallVersionPrompt;
       parse_call prompt ComponentLatestReleaseVersion_fmt;
       CallSummaryPrompt (version result)] ++ rest /\
    ((exists r,
        fst (run (process self)) = Returns (Value (VSummary r)) /\
        latestVersion r = version result) \/
     (exists msg,
        fst (run (process self)) =
          Returns (JSONResponse 500 (VDict {[ "error" := msg ]})))).
Proof.
  intros Hclient Hprompt Hparse Hsome Hfree.
  assert (py_in "error" (VStr (version result)) = false) as Hreached.
  { simpl. destruct (str_contains "error" (version result)) eqn:Hin;
      [|reflexivity].
    exfalso. apply Hfree. apply str_contains_spec. exact Hin. }
  destruct (process_cases self)
    as [(msg & l & Hrun & Hl)
       |(client' & prompt1 & response1 & result'
         & Hc & Hp1 & Hr1 & Ho1 & _ & Hrest)].
  - exfalso.
    pose proof (latest_version_success get_oneagent_version_prompt
                  self client prompt response result []
                  Hclient Hprompt Hparse Hsome) as Hstep1.
    unfold run in Hrun.
    rewrite (process_unfold _ _ self []), Hstep1, Hreached in Hrun.
    unfold as_str, ret in Hrun.
    destruct (release_summary_cases self (version result)
                ([] ++ [CallVersionPrompt;
                        parse_call prompt ComponentLatestReleaseVersion_fmt]))
      as [(msg2 & l2 & Hrun2 & Hl2)|(c & p2 & r2 & r0 & _ & _ & _ & _ & Hrun2)];
      rewrite Hrun2 in Hrun.
    + injection Hrun as _ Hlog.
      destruct Hl as [[-> _]|[[-> _]|(p & Hp & ->)]];
        destruct Hl2 as [[-> _]|(c & p2 & _ & _ & -> & _)];
        discriminate Hlog.
    + rewrite py_in_summary in Hrun. discriminate Hrun.
  - assert (client' = client) as -> by congruence.
    assert (prompt1 = prompt) as -> by congruence.
    assert (response1 = response) as -> by congruence.
    assert (result' = result) as -> by congruence.
    destruct Hrest as [[Hin _]|[_ [(msg & l2 & Hrun & Hl2)|Hok]]].
    + congruence.
    + rewrite Hrun. simpl.
      destruct Hl2 as [->|(prompt2 & _ & ->)]; eexists;
        (split; [reflexivity|]); right; eauto.
    + destruct Hok as (prompt2 & response2 & r0 & _ & _ & _ & Hrun).
      rewrite Hrun. simpl. eexists. split; [reflexivity|].
      left. eexists. split; reflexivity.
Qed.

(** X8: on every value that [_get_oneagent_release_summary] returns, the
    membership test of line 44 is exactly the test for an [error] key: it
    holds on the error dictionaries and fails on the summary record,
    whatever text the record carries. *)
Theorem summary_failure_test_is_key_test self version log :
  exists x log',
    release_summary self version log = (Returns x, log') /\
    (py_in "error" x = true <-> "error" ∈ keys x).
Proof.
  destruct (get_oneagent_release_summary_shape
              get_oneagent_summary_prompt self version log)
    as (x & log' & Hrun & Hshape).
  exists x, log'. split; [exact Hrun|].
  destruct Hshape as [[msg ->]|[r0 ->]].
  - rewrite py_in_error_dict, keys_error_dict. split; [|reflexivity].
    intros _. apply elem_of_singleton. reflexivity.
  - rewrite py_in_summary. split; [discriminate|].
    intros Hkey. exfalso. exact (keys_summary _ Hkey).
Qed.

End ServiceCalls.

(** * Call sequence and data flow on concrete collaborators *)

Lemma empty_summary_lookup :
  run (process_with_doubles empty_summary_service) =
    (Returns (JSONResponse 500
       (VDict {[ "error" := "Failed to get summary from OpenAI." ]})),
     [CallVersionPrompt;
      CallParse "gpt-4o" "What is the latest OneAgent version?"
        [web_search_preview] ComponentLatestReleaseVersion_fmt;
      CallSummaryPrompt "1.2.3";
      CallParse "gpt-4o" "Summarise the release notes of OneAgent 1.2.3"
        [web_search_preview] ComponentLatestReleaseSummary_fmt]).
Proof.
  apply (summary_lookup_without_parsed_payload
           version_prompt_double summary_prompt_double empty_summary_service
           (scripted_client (answers (mkVersion "1.2.3")) answers_nothing)
           "What is the latest OneAgent version?"
           (mkResponse (Some (mkVersion "1.2.3"))) (mkVersion "1.2.3")
           "Summarise the release notes of OneAgent 1.2.3"
           (mkResponse None));
    reflexivity.
Defined.

Lemma scenario_version_completion_call :
  "gpt-4o" = "gpt-4o" /\
  [web_search_preview] = [web_search_preview] /\
  version_prompt_double tt = Returns "What is the latest OneAgent version?".
Proof.
  apply (version_completion_call_uses_built_prompt
           version_prompt_double summary_prompt_double scenario_service).
  vm_compute. auto.
Defined.

Lemma scenario_summary_completion_call :
  "gpt-4o" = "gpt-4o" /\
  [web_search_preview] = [web_search_preview] /\
  exists v,
    fst (run (_oneagent_latest_version version_prompt_double scenario_service)) =
      Returns (VStr v) /\
    py_in "error" (VStr v) = false /\
    summary_prompt_double v =
      Returns "Summarise the release notes of OneAgent 24.5" /\
    In (CallSummaryPrompt v)
       (snd (run (process_with_doubles scenario_service))) /\
    exists before,
      snd (run (process_with_doubles scenario_service)) =
        before ++
        [CallSummaryPrompt v;
         CallParse "gpt-4o" "Summarise the release notes of OneAgent 24.5"
           [web_search_preview] ComponentLatestReleaseSummary_fmt].
Proof.
  apply (summary_completion_call_uses_looked_up_version
           version_prompt_double summary_prompt_double scenario_service).
  vm_compute. auto.
Defined.

Lemma scenario_success_ran_full_pipeline :
  exists client prompt1 response1 result prompt2 response2 r0,
    openai_client scenario_service = Some client /\
    version_prompt_double tt = Returns prompt1 /\
    responses_parse client "gpt-4o" prompt1 [web_search_preview]
      ComponentLatestReleaseVersion_fmt = Returns response1 /\
    output_parsed response1 = Some result /\
    py_in "error" (VStr (version result)) = false /\
    summary_prompt_double (version result) = Returns prompt2 /\
    responses_parse client "gpt-4o" prompt2 [web_search_preview]
      ComponentLatestReleaseSummary_fmt = Returns response2 /\
    output_parsed response2 = Some r0 /\
    VSummary (mkSummary "24.5" "Improved X") =
      VSummary (set_latestVersion (version result) r0) /\
    snd (run (process_with_doubles scenario_service)) =
      [CallVersionPrompt;
       CallParse "gpt-4o" prompt1 [web_search_preview]
         ComponentLatestReleaseVersion_fmt;
       CallSummaryPrompt (version result);
       CallParse "gpt-4o" prompt2 [web_search_preview]
         ComponentLatestReleaseSummary_fmt].
Proof.
  apply (success_only_after_full_pipeline
           version_prompt_double summary_prompt_double scenario_service
           (VSummary (mkSummary "24.5" "Improved X"))).
  reflexivity.
Defined.

Lemma unconfigured_summary_lookup :
  exists msg,
    run (_get_oneagent_release_summary summary_prompt_double
           unconfigured_service "24.5") =
      (Returns (VDict {[ "error" := msg ]}), [CallSummaryPrompt "24.5"]).
Proof.
  apply (release_summary_on_unconfigured_client
           summary_prompt_double unconfigured_service "24.5").
  reflexivity.
Defined.

Lemma scenario_version_reaches_summary_lookup :
  exists rest,
    snd (run (process_with_doubles scenario_service)) =
      [CallVersionPrompt;
       CallParse "gpt-4o" "What is the latest OneAgent version?"
         [web_search_preview] ComponentLatestReleaseVersion_fmt;
       CallSummaryPrompt "24.5"] ++ rest /\
    ((exists r,
        fst (run (process_with_doubles scenario_service)) =
          Returns (Value (VSummary r)) /\
        latestVersion r = "24.5") \/
     (exists msg,
        fst (run (process_with_doubles scenario_service)) =
          Returns (JSONResponse 500 (VDict {[ "error" := msg ]})))).
Proof.
  apply (version_without_error_reaches_summary_lookup
           version_prompt_double summary_prompt_double scenario_service
           (scripted_client (answers (mkVersion "24.5"))
                            (answers (mkSummary "unset" "Improved X")))
           "What is the latest OneAgent version?"
           (mkResponse (Some (mkVersion "24.5"))) (mkVersion "24.5"));
    try reflexivity.
  intros Hsub. apply str_contains_spec in Hsub. vm_compute in Hsub.
  discriminate Hsub.
Defined.
